(** * Call inspector of the explorer's component layer

    A shallow embedding of [extractState] and [Call] (the extrinsic/call
    renderer of react-components) and of [ProposedAction], followed by the
    properties of the extraction and of the placeholder text.

    JavaScript values are embedded as follows: an optional parameter or
    property ([x?: T], [T | null], [T | undefined]) is an [option], an array
    is a [list], a string is a [string]; a truthiness test is written out
    ([truthy], [truthyString], [isSome]). *)

From Stdlib Require Import String Ascii List Bool ZArith Lia.
From Stdlib Require Import DecimalString DecimalNat DecimalFacts.
From ExtLib Require Import Structures.Monad Structures.MonadExc.
From ExtLib Require Import Data.Monads.EitherMonad Data.Monads.OptionMonad.
Import ListNotations.
Import MonadNotation.
Local Open Scope monad_scope.
Local Open Scope string_scope.

Set Implicit Arguments.

(** ** JavaScript truthiness *)

(** [withHash ? a : b] on a [boolean | undefined]. *)
Definition truthy (b : option bool) : bool :=
  match b with
  | Some true => true
  | _ => false
  end.

(** A string is falsy exactly when it is empty. *)
Definition truthyString (s : string) : bool :=
  match s with
  | EmptyString => false
  | String _ _ => true
  end.

(** [!!x] on an object-valued property: present objects are truthy. *)
Definition isSome {A : Type} (x : option A) : bool :=
  match x with
  | Some _ => true
  | None => false
  end.

(** [Array.prototype.includes] on an array of strings. *)
Definition includes (l : list string) (s : string) : bool :=
  existsb (String.eqb s) l.

(** ** The codec layer (an external collaborator)

    The decoded values, the type descriptors and the hexadecimal rendering
    belong to the codec library; the extraction only calls them. *)

Class ToHex (A : Type) := toHex : A -> string.

Class CodecLayer := {
  Codec : Type;
  TypeDef : Type;
  getTypeDef : string -> TypeDef;
  Hash : Type;
  Hash_toHex :: ToHex Hash;
  Signature : Type;
  Signature_toHex :: ToHex Signature
}.

(** [Text] and [Type] of the metadata: objects read through [toString()]. *)
Record Text := { toString : string }.

(** The two exports of ./constants enter as parameters: the registry of
    balance-call names, and the one override map that tells the renderer
    which argument types are balances. *)
Class Constants := {
  ComponentMap : Type;
  balanceCalls : list string;
  balanceCallsOverrides : ComponentMap
}.

(** ** The input: [IExtrinsic | IMethod] *)

Record FunctionArgumentMetadata := { name : Text; type : Text }.

Record FunctionMetadata := { args : list FunctionArgumentMetadata }.

(** What [_raw?.signature?.multiSignature] may hold: an [Enum] (a tagged
    variant, with its [type] tag) or some other codec. *)
Inductive RawWrapper :=
| IsEnum (tag : string)
| NotEnum.

Record RawSignature := { multiSignature : option RawWrapper }.

Record RawExtrinsic := { raw_signature : option RawSignature }.

Module IValue.
Section IValue.
Context `{CodecLayer}.

(** One object type for both variants: an [IMethod] has no [signature]
    property, and its [isSigned] reads as falsy. *)
Record t := {
  meta : FunctionMetadata;
  args : list Codec;
  hash : Hash;
  signature : option Signature;
  isSigned : bool;
  _raw : option RawExtrinsic
}.
End IValue.
End IValue.

(** ** The output *)

Section Model.
Context `{CodecLayer} `{Constants}.

Record Param := { param_name : string; param_type : TypeDef }.

Record Value := { isValid : bool; value : Codec }.

Record Extracted := {
  hash : option string;
  overrides : option ComponentMap;
  params : list Param;
  signature : option string;
  signatureType : option string;
  values : list Value
}.

Definition isExtrinsic (value : IValue.t) : bool :=
  isSome (IValue.signature value).

Definition getRawSignature (value : IValue.t) : option RawWrapper :=
  raw <- IValue._raw value ;;
  sig <- raw_signature raw ;;
  multiSignature sig.

Definition extractState (value : IValue.t) (withHash withSignature : option bool)
    (callName : option string) : Extracted :=
  let overrides :=
    match callName with
    | Some callName =>
        if truthyString callName && includes balanceCalls callName
        then Some balanceCallsOverrides
        else None
    | None => None
    end in
  let params :=
    map (fun a => {| param_name := toString (name a);
                     param_type := getTypeDef (toString (type a)) |})
        (args (IValue.meta value)) in
  let values :=
    map (fun value => {| isValid := true; value := value |})
        (IValue.args value) in
  let hash :=
    if truthy withHash then Some (toHex (IValue.hash value)) else None in
  let '(signature, signatureType) :=
    if truthy withSignature && isExtrinsic value && IValue.isSigned value
    then
      let raw := getRawSignature value in
      (option_map toHex (IValue.signature value),
       match raw with
       | Some (IsEnum tag) => Some tag
       | _ => None
       end)
    else (None, None) in
  {| hash := hash; overrides := overrides; params := params;
     signature := signature; signatureType := signatureType;
     values := values |}.

(** The two callbacks of the [map] calls, named for the statements. *)
Definition mkParam (a : FunctionArgumentMetadata) : Param :=
  {| param_name := toString (name a);
     param_type := getTypeDef (toString (type a)) |}.

Definition mkValue (c : Codec) : Value :=
  {| isValid := true; value := c |}.
End Model.

(** ** The same code on an object whose types were erased

    TypeScript's types do not exist at run time. [JsValue] is an object that
    may lack [meta], or whose [meta] may lack [args]; reading a property of
    [undefined] raises a [TypeError]. [extractState] holds no [try], so the
    error leaves it. *)

Inductive JsError :=
| TypeError (message : string).

Record JsMeta := { js_meta_args : option (list FunctionArgumentMetadata) }.

Section Runtime.
Context `{CodecLayer} `{Constants}.

Record JsValue := {
  js_meta : option JsMeta;
  js_args : list Codec;
  js_hash : Hash;
  js_signature : option Signature;
  js_isSigned : bool;
  js_raw : option RawExtrinsic
}.

(** [value.meta.args]: the read that a typed value cannot fail and an
    object without [meta], or without [meta.args], does. *)
Definition readMetaArgs (value : JsValue)
  : sum JsError (list FunctionArgumentMetadata) :=
  match js_meta value with
  | None => raise (TypeError "Cannot read properties of undefined (reading 'args')")
  | Some m =>
      match js_meta_args m with
      | None => raise (TypeError "Cannot read properties of undefined (reading 'map')")
      | Some a => ret a
      end
  end.

Definition extractState_js (value : JsValue) (withHash withSignature : option bool)
    (callName : option string) : sum JsError Extracted :=
  a <- readMetaArgs value ;;
  ret (extractState
         {| IValue.meta := {| args := a |};
            IValue.args := js_args value;
            IValue.hash := js_hash value;
            IValue.signature := js_signature value;
            IValue.isSigned := js_isSigned value;
            IValue._raw := js_raw value |}
         withHash withSignature callName).

(** A typed value seen as a run-time object. *)
Definition erase (value : IValue.t) : JsValue :=
  {| js_meta := Some {| js_meta_args := Some (args (IValue.meta value)) |};
     js_args := IValue.args value;
     js_hash := IValue.hash value;
     js_signature := IValue.signature value;
     js_isSigned := IValue.isSigned value;
     js_raw := IValue._raw value |}.

(** ** The [Call] component

    [Handler] stands for the caller's [() => void]. Of the props, those
    that reach the extraction or the [Params] renderer are kept; labels,
    mortality and tip only feed the static rows. *)
Variable Handler : Type.

Record Props := {
  callName : option string;
  onError : option Handler;
  props_value : JsValue;
  withBorder : option bool;
  withHash : option bool;
  withSignature : option bool
}.

(** The initial [useState] value. *)
Definition Call_initial : Extracted :=
  {| hash := None; overrides := None; params := []; signature := None;
     signatureType := None; values := [] |}.

(** The body of the [useEffect]: what [setExtracted] receives, when
    [extractState] returns at all. *)
Definition Call_effect (p : Props) : sum JsError Extracted :=
  extractState_js (props_value p) (withHash p) (withSignature p) (callName p).

Record ParamsProps := {
  isDisabled : bool;
  params_onError : option Handler;
  params_overrides : option ComponentMap;
  params_params : list Param;
  params_values : list Value;
  params_withBorder : option bool
}.

(** The props [Call] hands to [Params], from its own props and state. *)
Definition Call_Params (p : Props) (state : Extracted) : ParamsProps :=
  {| isDisabled := true;
     params_onError := onError p;
     params_overrides := overrides state;
     params_params := params state;
     params_values := values state;
     params_withBorder := withBorder p |}.
End Runtime.

(** ** [ProposedAction] *)

(** Modelled from the spec: formatNumber belongs to the util library and is
    not part of these sources. A numeric identifier (a big number or an
    integral [number]) is written in decimal with thousands grouping: the
    digits in groups of three from the right, separated by commas, behind
    the sign. [groupThousands] works on the digits in reverse order. *)
Fixpoint groupThousands (reversedDigits : list ascii) : list ascii :=
  match reversedDigits with
  | a :: b :: c :: ((_ :: _) as more) => a :: b :: c :: ","%char :: groupThousands more
  | _ => reversedDigits
  end.

(** Modelled from the spec: the grouping of a string of decimal digits. *)
Definition formatDecimal (digits : string) : string :=
  string_of_list_ascii (rev (groupThousands (rev (list_ascii_of_string digits)))).

(** Modelled from the spec: formatNumber, the sign in front of the grouped
    digits of the absolute value. *)
Definition formatNumber (n : Z) : string :=
  (if (n <? 0)%Z then "-" else "")
    ++ formatDecimal (NilZero.string_of_uint (N.to_uint (Z.abs_N n))).

(** [BN | number | string]; the two numeric cases are one integer here. *)
Inductive IdNumber :=
| IdNumeric (n : Z)
| IdString (s : string).

Section ProposedAction.
(** The proposal's type ([Call] of the codec) and the translation
    function of [useTranslation]. *)
Variable Proposal : Type.
Variable t : string -> string.

Record ProposedActionProps := {
  className : option string;
  proposal : option Proposal;
  idNumber : option IdNumber
}.

Record CallExpanderProps := {
  isHeader : bool;
  labelHash : string;
  stringId : option string;
  expander_value : Proposal;
  expander_withHash : bool
}.

(** The element returned: a [div] of the given class around either a
    [div] of text or a [CallExpander]. *)
Inductive Element :=
| TextElement (cls : string) (text : string)
| CallExpanderElement (cls : string) (props : CallExpanderProps).

Definition noDetails : string :=
  "No execution details available for this proposal".

Definition ProposedAction (props : ProposedActionProps) : Element :=
  let className :=
    match className props with Some c => c | None => "" end in
  let stringId :=
    match idNumber props with
    | None => None
    | Some (IdString s) => Some s
    | Some (IdNumeric n) => Some (formatNumber n)
    end in
  match proposal props with
  | None =>
      TextElement ("ui--ProposedAction " ++ className)
        (match stringId with
         | Some id => if truthyString id then "#" ++ id ++ ": " else ""
         | None => ""
         end ++ t noDetails)
  | Some proposal =>
      CallExpanderElement ("ui--ProposedAction " ++ className)
        {| isHeader := true;
           labelHash := t "preimage";
           stringId := stringId;
           expander_value := proposal;
           expander_withHash := true |}
  end.
End ProposedAction.

(** ** The text the specification describes

    The placeholder text as the specification words it: the identifier,
    when one is supplied, goes in front of the fixed message as [#<id>: ],
    a number after formatting and a string unchanged. It is compared with
    [ProposedAction] below. *)
Definition placeholderText_spec (t : string -> string) (idNumber : option IdNumber)
  : string :=
  match idNumber with
  | None => t noDetails
  | Some (IdNumeric n) => "#" ++ formatNumber n ++ ": " ++ t noDetails
  | Some (IdString s) => "#" ++ s ++ ": " ++ t noDetails
  end.

(** ** A concrete codec layer, registry and inputs

    Used to run the definitions: byte strings for hashes and signatures,
    rendered as [0x] and two lower-case hexadecimal digits per byte; type
    descriptors left as their names. *)
Module Sample.
Definition hexDigit (n : N) : ascii :=
  match n with
  | 0 => "0" | 1 => "1" | 2 => "2" | 3 => "3" | 4 => "4" | 5 => "5"
  | 6 => "6" | 7 => "7" | 8 => "8" | 9 => "9" | 10 => "a" | 11 => "b"
  | 12 => "c" | 13 => "d" | 14 => "e" | _ => "f"
  end%N%char.

Definition hexByte (b : Byte.byte) : string :=
  let n := Byte.to_N b in
  String (hexDigit (n / 16)) (String (hexDigit (n mod 16)) "").

Definition u8aToHex (u : list Byte.byte) : string :=
  "0x" ++ String.concat "" (map hexByte u).

#[local] Instance codec : CodecLayer :=
  {| Codec := string;
     TypeDef := string;
     getTypeDef := fun s => s;
     Hash := list Byte.byte;
     Hash_toHex := u8aToHex;
     Signature := list Byte.byte;
     Signature_toHex := u8aToHex |}.

#[local] Instance constants : Constants :=
  {| ComponentMap := list (string * string);
     balanceCalls := ["balances.transfer"; "balances.transferKeepAlive"];
     balanceCallsOverrides := [("Compact<Balance>", "Balance")] |}.

Definition transferMeta : FunctionMetadata :=
  {| args := [ {| name := {| toString := "dest" |};
                  type := {| toString := "AccountId" |} |};
               {| name := {| toString := "value" |};
                  type := {| toString := "Compact<Balance>" |} |} ] |}.

(** A bare method: no [signature] property. *)
Definition transfer : @IValue.t codec :=
  {| IValue.meta := transferMeta;
     IValue.args := ["5GrwvaEF"; "500"];
     IValue.hash := [Byte.xde; Byte.xad; Byte.xbe; Byte.xef];
     IValue.signature := None;
     IValue.isSigned := false;
     IValue._raw := None |}.

(** The same call inside a signed extrinsic whose raw signature is a
    tagged [MultiSignature]. *)
Definition signedTransfer : @IValue.t codec :=
  {| IValue.meta := transferMeta;
     IValue.args := ["5GrwvaEF"; "500"];
     IValue.hash := [Byte.x01; Byte.x02];
     IValue.signature := Some [Byte.x0a; Byte.xff];
     IValue.isSigned := true;
     IValue._raw :=
       Some {| raw_signature :=
                 Some {| multiSignature := Some (IsEnum "Sr25519") |} |} |}.

(** An object of the same type with two declared arguments and one value. *)
Definition misaligned : @IValue.t codec :=
  {| IValue.meta := transferMeta;
     IValue.args := ["5GrwvaEF"];
     IValue.hash := [Byte.x01; Byte.x02];
     IValue.signature := None;
     IValue.isSigned := false;
     IValue._raw := None |}.

(** An object that reached [Call] without its metadata. *)
Definition noMeta : @JsValue codec :=
  {| js_meta := None;
     js_args := [];
     js_hash := [];
     js_signature := None;
     js_isSigned := false;
     js_raw := None |}.

Definition noProposal (idNumber : option IdNumber) : ProposedActionProps unit :=
  {| className := None; proposal := None; idNumber := idNumber |}.
End Sample.

(** ** [QrModal]: adding an account from a scanned QR code

    The three [useState] cells, the callbacks that write them, the save
    action and what is rendered from the state. The keyring is reached
    through its requests only: [KeyringCall] records which method is called
    with which arguments. *)
Module QrModal.

Record Scanned := {
  content : string;
  scanned_isAddress : bool;
  genesisHash : string;
  scanned_name : option string
}.

Record NameState := { isNameValid : bool; name : string }.

Record Address := {
  address : string;
  isAddress : bool;
  scanned : option Scanned;
  warning : option string
}.

Record PasswordState := { isPasswordValid : bool; password : string }.

Record State := {
  nameState : NameState;
  addressState : Address;
  passwordState : PasswordState
}.

Record Meta := { meta_genesisHash : string; meta_name : string }.

(** [keyring.addExternal(content)], [keyring.addExternal(content, meta)] and
    [keyring.addUri(content, password, meta, 'sr25519')]. *)
Inductive KeyringCall :=
| addExternal (content : string) (meta : option Meta)
| addUri (content password : string) (meta : Meta).

Record ActionStatus := {
  account : string;
  action : string;
  message : string;
  status : string
}.

(** What [_onSave] does to the outside, in order. *)
Inductive Effect :=
| KeyringAdd (call : KeyringCall)
| SetLastValue (type value : string)
| OnStatusChange (status : ActionStatus)
| OnClose.

(** What the user and the scanner can do. *)
Inductive Event :=
| NameChange (name : string)
| PasswordChange (password : string) (isPasswordValid : bool)
| Scan (scanned : Scanned)
| ScanError (message : string)
| Save.

(** What the modal shows: the scanner, with the warning under it when
    there is one, or the form of the scanned account. *)
Inductive Pane :=
| ScanPane (warning : option string)
| FormPane (value defaultName : string) (nameIsError genesisWarning passwordInput : bool).

Section QrModal.
(** [t] of [useTranslation]; [String.prototype.trim];
    [keyring.createFromUri(content, {}, 'sr25519').address]; [.pair.address]
    of what the keyring answers; [api.genesisHash.toHex()] and
    [api.genesisHash.eq]; the two environment flags. *)
Variable t : string -> string.
Variable trim : string -> string.
Variable createFromUri : string -> string.
Variable pairAddress : KeyringCall -> string.
Variable genesisHashHex : string.
Variable genesisHashEq : string -> bool.
Variable isEthereum isIpfs : bool.

Definition initial : State :=
  {| nameState := {| isNameValid := false; name := "" |};
     addressState :=
       {| address := ""; isAddress := false; scanned := None; warning := None |};
     passwordState := {| isPasswordValid := false; password := "" |} |}.

Definition isValid (st : State) : bool :=
  truthyString (address (addressState st))
  && isNameValid (nameState st)
  && (isAddress (addressState st) || isPasswordValid (passwordState st)).

Definition scannedGenesisWarn (st : State) : bool :=
  match scanned (addressState st) with
  | Some s => truthyString (genesisHash s) && negb (genesisHashEq (genesisHash s))
  | None => false
  end.

Definition _onNameChange (name : string) (st : State) : State :=
  {| nameState := {| isNameValid := truthyString (trim name); name := name |};
     addressState := addressState st;
     passwordState := passwordState st |}.

Definition _onPasswordChange (password : string) (isPasswordValid : bool)
    (st : State) : State :=
  {| nameState := nameState st;
     addressState := addressState st;
     passwordState :=
       {| isPasswordValid := isPasswordValid; password := password |} |}.

Definition _onScan (s : Scanned) (st : State) : State :=
  let st' :=
    {| nameState := nameState st;
       addressState :=
         {| address := if scanned_isAddress s then content s
                       else createFromUri (content s);
            isAddress := scanned_isAddress s;
            scanned := Some s;
            warning := None |};
       passwordState := passwordState st |} in
  match scanned_name s with
  | Some n => if truthyString n then _onNameChange n st' else st'
  | None => st'
  end.

Definition _onError (message : string) (st : State) : State :=
  {| nameState := nameState st;
     addressState :=
       {| address := ""; isAddress := false; scanned := None;
          warning := Some message |};
     passwordState := passwordState st |}.

Definition _onSave (st : State) : list Effect :=
  match scanned (addressState st) with
  | None => []
  | Some s =>
      if negb (isValid st) then []
      else
        let meta :=
          {| meta_genesisHash :=
               if truthyString (genesisHash s) then genesisHash s
               else genesisHashHex;
             meta_name := trim (name (nameState st)) |} in
        let call :=
          if scanned_isAddress s
          then if isEthereum then addExternal (content s) None
               else addExternal (content s) (Some meta)
          else addUri (content s) (password (passwordState st)) meta in
        let account := pairAddress call in
        [ KeyringAdd call;
          SetLastValue "account" account;
          OnStatusChange {| account := account; action := "create";
                            message := t "created account";
                            status := "success" |};
          OnClose ]
  end.

(** [isDisabled] of the Save button. *)
Definition saveDisabled (st : State) : bool :=
  negb (isSome (scanned (addressState st)))
  || negb (isValid st)
  || (negb (isAddress (addressState st)) && isIpfs).

Definition render (st : State) : Pane :=
  match scanned (addressState st) with
  | Some s =>
      FormPane (content s) (name (nameState st))
        (negb (isNameValid (nameState st)))
        (scannedGenesisWarn st)
        (negb (isAddress (addressState st)))
  | None =>
      ScanPane match warning (addressState st) with
               | Some w => if truthyString w then Some w else None
               | None => None
               end
  end.

(** One event: the state after it. [Save] writes no cell. *)
Definition handle (st : State) (e : Event) : State :=
  match e with
  | NameChange n => _onNameChange n st
  | PasswordChange p v => _onPasswordChange p v st
  | Scan s => _onScan s st
  | ScanError m => _onError m st
  | Save => st
  end.

Definition run (events : list Event) : State :=
  fold_left handle events initial.

(** What the callbacks keep true of the name cell and of the address cell;
    both are shown below to hold after every sequence of events. *)
Definition nameKept (st : State) : Prop :=
  nameState st = {| isNameValid := false; name := "" |}
  \/ isNameValid (nameState st) = truthyString (trim (name (nameState st))).

Definition addressKept (st : State) : Prop :=
  match scanned (addressState st) with
  | None => address (addressState st) = "" /\ isAddress (addressState st) = false
  | Some s =>
      isAddress (addressState st) = scanned_isAddress s
      /\ address (addressState st)
         = (if scanned_isAddress s then content s else createFromUri (content s))
      /\ warning (addressState st) = None
  end.
End QrModal.

(** A trimming of ASCII blanks and a scanner's answers, to run the modal. *)
Definition isBlank (c : ascii) : bool :=
  match c with
  | " "%char | "009"%char | "010"%char | "011"%char | "012"%char | "013"%char => true
  | _ => false
  end.

Fixpoint trimStart (s : string) : string :=
  match s with
  | String c rest => if isBlank c then trimStart rest else s
  | EmptyString => EmptyString
  end.

Definition sampleTrim (s : string) : string :=
  string_of_list_ascii
    (rev (list_ascii_of_string
            (trimStart (string_of_list_ascii
                          (rev (list_ascii_of_string (trimStart s))))))).

Definition sampleUri : Scanned :=
  {| content := "0xfeedface"; scanned_isAddress := false; genesisHash := "";
     scanned_name := Some " cold wallet " |}.

Definition sampleAddress : Scanned :=
  {| content := "5GrwvaEF"; scanned_isAddress := true; genesisHash := "0x91b1";
     scanned_name := None |}.

Definition samplePair (call : KeyringCall) : string :=
  match call with
  | addExternal c _ => c
  | addUri c _ _ => "5Derived" ++ c
  end.
End QrModal.

(** ** [Propose]: submitting a democracy proposal

    The three [useState] cells, what the hooks return at a render ([Env]),
    and the two props computed for the submit button. *)
Module Propose.

Record HashState := { hash : option string; isHashValid : bool }.

Record State := {
  accountId : option string;
  balance : option Z;
  hashState : HashState
}.

Inductive Event :=
| SetAccountId (accountId : option string)
| SetBalance (balance : option Z)
| ChangeHash (hash : option string).

Section Propose.
(** [isHex(value, bitLength)] of the util library, [usePreimage], and a
    type for the entries of [publicProps], of which only the number is
    used. *)
Variable isHex : option string -> nat -> bool.
Variable Preimage : Type.
Variable usePreimage : option string -> option Preimage.
Variable PublicProp : Type.

(** [api.consts.democracy.minimumDeposit], the [publicProps] query,
    [api.tx.democracy.propose.meta.args.length], and whether
    [api.tx.preimage?.notePreimage] and [api.tx.democracy?.notePreimage]
    are functions. *)
Record Env := {
  minimumDeposit : Z;
  publicProps : option (list PublicProp);
  proposeArgs : nat;
  preimageNotePreimage : bool;
  democracyNotePreimage : bool
}.

(** One entry of the [params] array; an entry may be [undefined]. The
    lookup entry stands for
    [{ Lookup: { hash: preimage.proposalHash, len: preimage.proposalLength } }]. *)
Inductive Param :=
| ParamHash (hash : option string)
| ParamBalance (balance : option Z)
| ParamLength (length : option nat)
| ParamLookup (preimage : option Preimage).

Definition initial : State :=
  {| accountId := None; balance := None;
     hashState := {| hash := None; isHashValid := false |} |}.

Definition _onChangeHash (hash : option string) (st : State) : State :=
  {| accountId := accountId st;
     balance := balance st;
     hashState := {| hash := hash; isHashValid := isHex hash 256 |} |}.

Definition handle (st : State) (e : Event) : State :=
  match e with
  | SetAccountId a =>
      {| accountId := a; balance := balance st; hashState := hashState st |}
  | SetBalance b =>
      {| accountId := accountId st; balance := b; hashState := hashState st |}
  | ChangeHash h => _onChangeHash h st
  end.

Definition run (events : list Event) : State :=
  fold_left handle events initial.

(** [balance?.gte(api.consts.democracy.minimumDeposit)]. *)
Definition hasMinLocked (env : Env) (st : State) : option bool :=
  option_map (fun b => (minimumDeposit env <=? b)%Z) (balance st).

Definition preimageOnly (env : Env) : bool :=
  preimageNotePreimage env && negb (democracyNotePreimage env).

(** [isDisabled] of the submit button. A big number and an array are
    objects, truthy whatever they hold; an account id is a string. *)
Definition isDisabled (env : Env) (st : State) : bool :=
  negb (isSome (balance st))
  || negb (truthy (hasMinLocked env st))
  || negb (isHashValid (hashState st))
  || negb (match accountId st with Some a => truthyString a | None => false end)
  || negb (isSome (publicProps env))
  || (preimageOnly env && negb (isSome (usePreimage (hash (hashState st))))).

Definition params (env : Env) (st : State) : list Param :=
  if (proposeArgs env =? 3)%nat
  then [ ParamHash (hash (hashState st));
         ParamBalance (balance st);
         ParamLength (option_map (@List.length PublicProp) (publicProps env)) ]
  else if preimageOnly env
       then [ ParamLookup (usePreimage (hash (hashState st)));
              ParamBalance (balance st) ]
       else [ ParamHash (hash (hashState st)); ParamBalance (balance st) ].

(** An entry that is not [undefined]. *)
Definition defined (p : Param) : Prop :=
  match p with
  | ParamHash h => h <> None
  | ParamBalance b => b <> None
  | ParamLength n => n <> None
  | ParamLookup i => i <> None
  end.

(** What [_onChangeHash] keeps true of the hash cell. *)
Definition hashKept (st : State) : Prop :=
  hashState st = {| hash := None; isHashValid := false |}
  \/ isHashValid (hashState st) = isHex (hash (hashState st)) 256.
End Propose.

(** A chain, hooks and inputs to run the form: an [isHex] that wants the
    [0x] prefix and the digits of the given number of bits. *)
Definition sampleIsHex (value : option string) (bitLength : nat) : bool :=
  match value with
  | Some s => String.prefix "0x" s && (String.length s =? 2 + bitLength / 4)%nat
  | None => false
  end.

Definition sampleEnv : Env unit :=
  {| minimumDeposit := 100; publicProps := Some [tt; tt]; proposeArgs := 2;
     preimageNotePreimage := true; democracyNotePreimage := false |}.

Definition samplePreimage (hash : option string) : option (string * Z) :=
  option_map (fun h => (h, 42%Z)) hash.

Definition sampleInputs : list Event :=
  [ SetAccountId (Some "5GrwvaEF");
    SetBalance (Some 150%Z);
    ChangeHash
      (Some "0x00112233445566778899aabbccddeeff00112233445566778899aabbccddeeff") ].
End Propose.

(** ** [Deposits]: the deposit cell of a referendum row *)
Module Deposits.
Section Deposits.
Variables AccountId Balance Id PalletReferenda Track : Type.

Record PalletReferendaDeposit := { who : AccountId; amount : Balance }.

Record Props := {
  canDeposit : option bool;
  canRefund : option bool;
  className : option string;
  decision : option PalletReferendaDeposit;
  id : Id;
  palletReferenda : PalletReferenda;
  submit : option PalletReferendaDeposit;
  track : option Track
}.

(** The children of the cell. *)
Inductive Child :=
| AddressMini (balance : Balance) (value : AccountId) (withBalance : bool)
| Refund (id : Id) (palletReferenda : PalletReferenda)
| Place (id : Id) (palletReferenda : PalletReferenda) (track : Track).

Record Cell := { cell_className : string; children : list Child }.

Definition Deposits (p : Props) : Cell :=
  {| cell_className :=
       match className p with Some c => c | None => "" end ++ " address";
     children :=
       match submit p with
       | Some s => [AddressMini (amount s) (who s) true]
       | None => []
       end
       ++ match decision p with
          | Some d =>
              AddressMini (amount d) (who d) true
              :: (if truthy (canRefund p)
                  then [Refund (id p) (palletReferenda p)]
                  else [])
          | None =>
              if truthy (canDeposit p)
              then match track p with
                   | Some tr => [Place (id p) (palletReferenda p) tr]
                   | None => []
                   end
              else []
          end |}.

Definition isRefund (c : Child) : bool :=
  match c with Refund _ _ => true | _ => false end.

Definition isPlace (c : Child) : bool :=
  match c with Place _ _ _ => true | _ => false end.

Definition isAddressMini (c : Child) : bool :=
  match c with AddressMini _ _ _ => true | _ => false end.

(** A deposit that may be [null], as the list of the deposits there are. *)
Definition present (d : option PalletReferendaDeposit)
  : list PalletReferendaDeposit :=
  match d with
  | Some x => [x]
  | None => []
  end.
End Deposits.
End Deposits.

(** ** [Proposal]: the row of a democracy proposal *)
Module DemocracyProposal.

(** [Array.prototype.filter] and [Array.prototype.map], whose callbacks
    receive the element and its index. *)
Fixpoint filterFrom {A : Type} (f : A -> nat -> bool) (index : nat) (l : list A)
  : list A :=
  match l with
  | [] => []
  | x :: rest =>
      if f x index then x :: filterFrom f (S index) rest
      else filterFrom f (S index) rest
  end.

Definition filterIndexed {A : Type} (f : A -> nat -> bool) (l : list A) : list A :=
  filterFrom f 0 l.

Fixpoint mapFrom {A B : Type} (f : A -> nat -> B) (index : nat) (l : list A)
  : list B :=
  match l with
  | [] => []
  | x :: rest => f x index :: mapFrom f (S index) rest
  end.

Definition mapIndexed {A B : Type} (f : A -> nat -> B) (l : list A) : list B :=
  mapFrom f 0 l.

(** An array index inside a template literal: its decimal digits. *)
Definition numberToString (n : nat) : string :=
  NilZero.string_of_uint (Nat.to_uint n).

(** A text without the colon that separates index and address in a key. *)
Fixpoint noColon (s : string) : Prop :=
  match s with
  | EmptyString => True
  | String c rest => c <> ":"%char /\ noColon rest
  end.

Section DemocracyProposal.
Variable AccountId : Type.
Variable toHex : AccountId -> string.

Record AddressMiniProps := {
  key : string;
  value : AccountId;
  withBalance : bool;
  withShrink : bool
}.

Definition seconding (seconds : list AccountId) : list AccountId :=
  filterIndexed (fun _address index => negb (index =? 0)%nat) seconds.

Definition renderSeconds (seconds : list AccountId) : list AddressMiniProps :=
  mapIndexed
    (fun address count =>
       {| key := numberToString count ++ ":" ++ toHex address;
          value := address;
          withBalance := false;
          withShrink := true |})
    (seconding seconds).

(** [seconding.length !== 0], the test in front of the expander. *)
Definition showEndorsements (seconds : list AccountId) : bool :=
  negb (List.length (seconding seconds) =? 0)%nat.
End DemocracyProposal.
End DemocracyProposal.

(** ** The rows under the parameters of [Call]

    The children of [ui--Extrinsic--toplevel]: up to four [Static] rows,
    each behind a truthiness test. *)
Module CallRows.
Section CallRows.
Context `{CodecLayer} `{Constants}.

(** Elements other than text, [t] of [useTranslation], and [t] with one
    replacement: [t(key, { replace: { [name]: value } })]. *)
Variable Node : Type.
Variable t : string -> string.
Variable tReplace : string -> string -> string -> string.

(** A label: text or an element. Text is falsy when empty, an element never. *)
Inductive ReactNode :=
| NodeText (text : string)
| NodeElement (element : Node).

(** [label || fallback]. *)
Definition orElse (label : option ReactNode) (fallback : ReactNode) : ReactNode :=
  match label with
  | Some (NodeText s) => if truthyString s then NodeText s else fallback
  | Some (NodeElement e) => NodeElement e
  | None => fallback
  end.

Record RowProps := {
  labelHash : option ReactNode;
  labelSignature : option ReactNode;
  mortality : option string;
  tip : option Z
}.

(** The [value] of a row: text, or [<FormatBalance value={tip} />]. *)
Inductive StaticValue :=
| ValueText (text : string)
| ValueBalance (value : Z).

Record Static := {
  static_className : string;
  label : ReactNode;
  static_value : StaticValue;
  withCopy : bool
}.

(** [x && row] for a string that may be null. *)
Definition whenText (x : option string) (row : string -> Static) : list Static :=
  match x with
  | Some s => if truthyString s then [row s] else []
  | None => []
  end.

Definition Call_toplevel (p : RowProps) (state : Extracted) : list Static :=
  whenText (hash state)
    (fun hash =>
       {| static_className := "hash";
          label := orElse (labelHash p) (NodeText (t "extrinsic hash"));
          static_value := ValueText hash;
          withCopy := true |})
  ++ whenText (signature state)
       (fun signature =>
          {| static_className := "hash";
             label :=
               orElse (labelSignature p)
                 (NodeText
                    (tReplace "signature {{type}}" "type"
                       match signatureType state with
                       | Some ty => if truthyString ty then "(" ++ ty ++ ")" else ""
                       | None => ""
                       end));
             static_value := ValueText signature;
             withCopy := true |})
  ++ whenText (mortality p)
       (fun mortality =>
          {| static_className := "mortality";
             label := NodeText (t "lifetime");
             static_value := ValueText mortality;
             withCopy := false |})
  ++ match tip p with
     | Some tip =>
         if (0 <? tip)%Z
         then [ {| static_className := "tip";
                   label := NodeText (t "tip");
                   static_value := ValueBalance tip;
                   withCopy := false |} ]
         else []
     | None => []
     end.

Definition hasClass (c : string) (row : Static) : bool :=
  String.eqb (static_className row) c.
End CallRows.
End CallRows.

(** ** [null] and [undefined]

    The record above writes every empty field as [None]. JavaScript has two
    empty values, and the source uses both: [hash], [signature] and
    [signatureType] are [string | null] and are set to [null]; [overrides] is
    declared [overrides?: ComponentMap] and is set to [undefined]. *)
Inductive Nullable (A : Type) :=
| IsNull
| IsUndefined
| Defined (a : A).

Arguments IsNull {A}.
Arguments IsUndefined {A}.
Arguments Defined {A} a.

(** [x === null]. *)
Definition strictlyNull {A : Type} (x : Nullable A) : bool :=
  match x with
  | IsNull => true
  | _ => false
  end.

Section Overrides.
Context `{CodecLayer} `{Constants}.

(** The first statement of [extractState], with its [undefined] kept. *)
Definition overridesOf (callName : option string) : Nullable ComponentMap :=
  match callName with
  | Some callName =>
      if truthyString callName && includes balanceCalls callName
      then Defined balanceCallsOverrides
      else IsUndefined
  | None => IsUndefined
  end.

(** The JavaScript value of the [overrides] property of a record. *)
Definition overridesValue (r : Extracted) : Nullable ComponentMap :=
  match overrides r with
  | Some m => Defined m
  | None => IsUndefined
  end.
End Overrides.

(** * Properties *)

(** ** Helpers *)

Lemma includes_In (l : list string) (s : string) :
  includes l s = true <-> In s l.
Proof.
  unfold includes. rewrite existsb_exists. split.
  - intros [x [Hin Heq]]. apply String.eqb_eq in Heq. now subst.
  - intros Hin. exists s. split; [assumption | apply String.eqb_refl].
Qed.

Lemma truthyString_nonempty (s : string) :
  truthyString s = true <-> s <> "".
Proof.
  destruct s; simpl; split; intros; congruence.
Qed.

Section ExtractionFacts.
Context `{CodecLayer} `{Constants}.

(** The fields of the record, one equation each. *)
Lemma extractState_params v wh ws cn :
  params (extractState v wh ws cn) = map mkParam (args (IValue.meta v)).
Proof.
  unfold extractState.
  destruct (truthy ws && isExtrinsic v && IValue.isSigned v); reflexivity.
Qed.

Lemma extractState_values v wh ws cn :
  values (extractState v wh ws cn) = map mkValue (IValue.args v).
Proof.
  unfold extractState.
  destruct (truthy ws && isExtrinsic v && IValue.isSigned v); reflexivity.
Qed.

Lemma extractState_hash v wh ws cn :
  hash (extractState v wh ws cn)
  = if truthy wh then Some (toHex (IValue.hash v)) else None.
Proof.
  unfold extractState.
  destruct (truthy ws && isExtrinsic v && IValue.isSigned v); reflexivity.
Qed.

Lemma extractState_overrides v wh ws cn :
  overrides (extractState v wh ws cn)
  = match cn with
    | Some c =>
        if truthyString c && includes balanceCalls c
        then Some balanceCallsOverrides else None
    | None => None
    end.
Proof.
  unfold extractState.
  destruct (truthy ws && isExtrinsic v && IValue.isSigned v); reflexivity.
Qed.

Lemma extractState_signature v wh ws cn :
  signature (extractState v wh ws cn)
  = if truthy ws && isExtrinsic v && IValue.isSigned v
    then option_map toHex (IValue.signature v) else None.
Proof.
  unfold extractState.
  destruct (truthy ws && isExtrinsic v && IValue.isSigned v); reflexivity.
Qed.

Lemma extractState_signatureType v wh ws cn :
  signatureType (extractState v wh ws cn)
  = if truthy ws && isExtrinsic v && IValue.isSigned v
    then match getRawSignature v with
         | Some (IsEnum tag) => Some tag
         | _ => None
         end
    else None.
Proof.
  unfold extractState.
  destruct (truthy ws && isExtrinsic v && IValue.isSigned v); reflexivity.
Qed.

(** A registry without the empty name decides membership alone: the
    truthiness test on the call name never vetoes a registered name. *)
Lemma registered_truthy (c : string) :
  ~ In "" balanceCalls ->
  (truthyString c && includes balanceCalls c = true) <-> In c balanceCalls.
Proof.
  intros Hne. rewrite andb_true_iff, includes_In, truthyString_nonempty.
  split; [tauto |].
  intros Hin. split; [| assumption]. intros ->. contradiction.
Qed.

(** The record depends on the two flags through their truthiness only: an
    absent flag and a false one give the same record. *)
Lemma extractState_flags_truthiness v wh1 wh2 ws1 ws2 cn :
  truthy wh1 = truthy wh2 -> truthy ws1 = truthy ws2 ->
  extractState v wh1 ws1 cn = extractState v wh2 ws2 cn.
Proof.
  intros Hh Hs. unfold extractState. rewrite Hh, Hs. reflexivity.
Qed.
End ExtractionFacts.

(** ** The extraction on typed inputs *)

Section Extraction.
Context `{CodecLayer} `{Constants}.

(** C1, as the code has it. For every input, all flags and call names:
    [params] has one entry per declared argument and [values] one entry per
    actual argument value, entry [i] of [params] being the descriptor of
    declared argument [i] and entry [i] of [values] the value at position
    [i]. The two lengths are equal exactly when the input carries as many
    values as it declares arguments, which [extractState] does not check. *)
Theorem extractState_params_values_lengths
    (v : IValue.t) (wh ws : option bool) (cn : option string) :
  let r := extractState v wh ws cn in
  length (params r) = length (args (IValue.meta v))
  /\ length (values r) = length (IValue.args v)
  /\ (length (params r) = length (values r)
      <-> length (IValue.args v) = length (args (IValue.meta v)))
  /\ forall i,
       nth_error (params r) i = option_map mkParam (nth_error (args (IValue.meta v)) i)
       /\ nth_error (values r) i = option_map mkValue (nth_error (IValue.args v) i).
Proof.
  intros r. subst r.
  rewrite extractState_params, extractState_values.
  rewrite !length_map. repeat split.
  - intros Heq. symmetry. exact Heq.
  - intros Heq. symmetry. exact Heq.
  - apply nth_error_map.
  - apply nth_error_map.
Qed.

(** C3. With [withSignature] set, on an extrinsic that carries a signature
    and reports itself signed, [signature] is the hexadecimal rendering of
    the signature. [signatureType] is the tag of the raw wrapper
    [_raw.signature.multiSignature] when that wrapper is a tagged variant;
    it is null when [_raw], its [signature] or the [multiSignature] is
    absent, and when the wrapper is not a tagged variant. *)
Theorem extractState_signed_signature
    (v : IValue.t) (wh : option bool) (cn : option string) (sig : Signature) :
  IValue.signature v = Some sig ->
  IValue.isSigned v = true ->
  let r := extractState v wh (Some true) cn in
  signature r = Some (toHex sig)
  /\ (forall raw rawSig tag,
        IValue._raw v = Some raw -> raw_signature raw = Some rawSig ->
        multiSignature rawSig = Some (IsEnum tag) ->
        signatureType r = Some tag)
  /\ (IValue._raw v = None -> signatureType r = None)
  /\ (forall raw,
        IValue._raw v = Some raw -> raw_signature raw = None ->
        signatureType r = None)
  /\ (forall raw rawSig,
        IValue._raw v = Some raw -> raw_signature raw = Some rawSig ->
        multiSignature rawSig = None ->
        signatureType r = None)
  /\ (forall raw rawSig,
        IValue._raw v = Some raw -> raw_signature raw = Some rawSig ->
        multiSignature rawSig = Some NotEnum ->
        signatureType r = None).
Proof.
  intros Hsig Hsigned r. subst r.
  rewrite extractState_signature, extractState_signatureType.
  unfold isExtrinsic, getRawSignature. rewrite Hsig, Hsigned. simpl.
  split; [reflexivity |].
  split; [intros raw rawSig tag -> Hs Hm; simpl; rewrite Hs; simpl; now rewrite Hm |].
  split; [intros ->; reflexivity |].
  split; [intros raw -> Hs; simpl; now rewrite Hs |].
  split; intros raw rawSig -> Hs Hm; simpl; rewrite Hs; simpl; now rewrite Hm.
Qed.

(** C4. A method (an input without a [signature] property) gets a null
    [signature] and a null [signatureType], whatever [withSignature] is. *)
Theorem extractState_method_unsigned
    (v : IValue.t) (wh ws : option bool) (cn : option string) :
  IValue.signature v = None ->
  signature (extractState v wh ws cn) = None
  /\ signatureType (extractState v wh ws cn) = None.
Proof.
  intros Hnone.
  rewrite extractState_signature, extractState_signatureType.
  unfold isExtrinsic. rewrite Hnone. simpl.
  rewrite andb_false_r. simpl. split; reflexivity.
Qed.

(** C5, as the code has it. With a registry of (non-empty) call names: a
    [callName] found in the registry gives the registry's override map as
    [overrides]; a [callName] not found there, or none at all, leaves
    [overrides] undefined, which is not null. *)
Theorem extractState_overrides_undefined
    (v : IValue.t) (wh ws : option bool) :
  ~ In "" balanceCalls ->
  (forall c, In c balanceCalls ->
     overridesValue (extractState v wh ws (Some c)) = Defined balanceCallsOverrides)
  /\ (forall c, ~ In c balanceCalls ->
        overridesValue (extractState v wh ws (Some c)) = IsUndefined
        /\ strictlyNull (overridesValue (extractState v wh ws (Some c))) = false)
  /\ overridesValue (extractState v wh ws None) = IsUndefined
  /\ strictlyNull (overridesValue (extractState v wh ws None)) = false
  /\ (forall cn, overridesValue (extractState v wh ws cn) = overridesOf cn).
Proof.
  intros Hnames.
  assert (Hof : forall cn, overridesValue (extractState v wh ws cn) = overridesOf cn).
  { intros cn. unfold overridesValue, overridesOf. rewrite extractState_overrides.
    destruct cn as [c |]; [| reflexivity].
    destruct (truthyString c && includes balanceCalls c); reflexivity. }
  split; [| split; [| split; [| split]]].
  - intros c Hin. rewrite Hof. unfold overridesOf.
    apply (registered_truthy c Hnames) in Hin. now rewrite Hin.
  - intros c Hout. rewrite Hof. unfold overridesOf.
    destruct (truthyString c && includes balanceCalls c) eqn:E.
    + apply (registered_truthy c Hnames) in E. contradiction.
    + split; reflexivity.
  - rewrite Hof. reflexivity.
  - rewrite Hof. reflexivity.
  - exact Hof.
Qed.

(** C6. [hash] is null when [withHash] is false or not supplied, and is the
    hexadecimal rendering of the value's hash when [withHash] is true. *)
Theorem extractState_hash_flag
    (v : IValue.t) (ws : option bool) (cn : option string) :
  hash (extractState v (Some false) ws cn) = None
  /\ hash (extractState v None ws cn) = None
  /\ hash (extractState v (Some true) ws cn) = Some (toHex (IValue.hash v)).
Proof.
  repeat split; rewrite extractState_hash; reflexivity.
Qed.

(** C7. Every entry of [values] has [isValid] true. *)
Theorem extractState_values_valid
    (v : IValue.t) (wh ws : option bool) (cn : option string) :
  Forall (fun x => isValid x = true) (values (extractState v wh ws cn)).
Proof.
  rewrite extractState_values.
  induction (IValue.args v) as [| c l IH]; simpl; constructor.
  - reflexivity.
  - exact IH.
Qed.

(** C10. With a registry of (non-empty) call names: any two registered
    names give the same [overrides], namely the one shared override map,
    whatever the value and the flags are. *)
Theorem extractState_overrides_shared
    (v1 v2 : IValue.t) (wh1 wh2 ws1 ws2 : option bool) (c1 c2 : string) :
  ~ In "" balanceCalls ->
  In c1 balanceCalls -> In c2 balanceCalls ->
  overrides (extractState v1 wh1 ws1 (Some c1))
  = overrides (extractState v2 wh2 ws2 (Some c2))
  /\ overrides (extractState v1 wh1 ws1 (Some c1)) = Some balanceCallsOverrides.
Proof.
  intros Hnames Hin1 Hin2.
  rewrite !extractState_overrides.
  apply (registered_truthy c1 Hnames) in Hin1.
  apply (registered_truthy c2 Hnames) in Hin2.
  rewrite Hin1, Hin2. split; reflexivity.
Qed.
End Extraction.

(** ** The extraction on run-time objects, and [Call] *)

Section RuntimeFacts.
Context `{CodecLayer} `{Constants}.

(** On a typed value the run-time reading returns, and returns what the
    typed function computes. *)
Lemma extractState_js_erase (v : IValue.t) wh ws cn :
  extractState_js (erase v) wh ws cn = inr (extractState v wh ws cn).
Proof.
  destruct v as [[declared] actual h sig signed raw]. reflexivity.
Qed.

Lemma extractState_js_declared (v : JsValue) wh ws cn declared :
  readMetaArgs v = inr declared ->
  exists r, extractState_js v wh ws cn = inr r
            /\ params r = map mkParam declared.
Proof.
  intros Hread. unfold extractState_js. rewrite Hread. simpl.
  eexists. split; [reflexivity |]. apply extractState_params.
Qed.

Lemma extractState_js_raises (v : JsValue) wh ws cn e :
  readMetaArgs v = inl e -> extractState_js v wh ws cn = inl e.
Proof.
  intros Hread. unfold extractState_js. rewrite Hread. reflexivity.
Qed.

(** C2, as the code has it. [extractState] has no handler and no error
    callback. When the declared-argument metadata can be read it returns a
    record with one parameter per declared argument, an empty list only
    for an empty declaration; a typed value always is such an input. When
    [meta] or its [args] is missing, the read raises a [TypeError] that
    leaves [extractState]; the effect of [Call] adds no handler either,
    and [Call] hands [onError] on to [Params] untouched. *)
Theorem extractState_js_outcome
    (Handler : Type) (v : JsValue) (wh ws : option bool) (cn : option string) :
  match js_meta v with
  | Some {| js_meta_args := Some declared |} =>
      exists r, extractState_js v wh ws cn = inr r
                /\ params r = map mkParam declared
                /\ (params r = [] <-> declared = [])
  | _ => exists message, extractState_js v wh ws cn = inl (TypeError message)
  end
  /\ (forall tv : IValue.t,
        extractState_js (erase tv) wh ws cn = inr (extractState tv wh ws cn))
  /\ (forall p : Props Handler,
        Call_effect p
        = extractState_js (props_value p) (withHash p) (withSignature p) (callName p))
  /\ (forall (p : Props Handler) (state : Extracted),
        params_onError (Call_Params p state) = onError p).
Proof.
  split; [| split; [| split]].
  - destruct (js_meta v) as [[[declared |]] |] eqn:Hmeta.
    + destruct (@extractState_js_declared v wh ws cn declared) as [r [Hr Hp]].
      { unfold readMetaArgs. rewrite Hmeta. reflexivity. }
      exists r. repeat split; try assumption.
      * rewrite Hp. destruct declared; [reflexivity | discriminate].
      * intros ->. exact Hp.
    + eexists. apply extractState_js_raises.
      unfold readMetaArgs. rewrite Hmeta. reflexivity.
    + eexists. apply extractState_js_raises.
      unfold readMetaArgs. rewrite Hmeta. reflexivity.
  - intros tv. apply extractState_js_erase.
  - intros p. reflexivity.
  - intros p state. reflexivity.
Qed.
End RuntimeFacts.

(** C2, as stated, fails on an object without metadata: no record with an
    empty parameter list comes back, the call raises. *)
Lemma extractState_js_noMeta_raises :
  ~ exists r,
      @extractState_js Sample.codec Sample.constants Sample.noMeta None None None
      = inr r
      /\ params r = [].
Proof.
  intros [r [Hr _]]. vm_compute in Hr. discriminate Hr.
Qed.

(** ** [ProposedAction] without a proposal *)

Lemma append_assoc (a b c : string) : (a ++ b) ++ c = a ++ b ++ c.
Proof.
  induction a as [| x a IH]; simpl; [reflexivity | now rewrite IH].
Qed.

Lemma truthyString_append (a b : string) :
  truthyString b = true -> truthyString (a ++ b) = true.
Proof.
  destruct a; simpl; [trivial | reflexivity].
Qed.

Lemma string_of_uint_nonempty (d : Decimal.uint) :
  NilZero.string_of_uint d <> "".
Proof.
  destruct d; simpl; discriminate.
Qed.

Lemma groupThousands_nonempty (l : list ascii) :
  l <> [] -> groupThousands l <> [].
Proof.
  destruct l as [| a [| b [| c [| d more]]]]; simpl; congruence.
Qed.

Lemma formatDecimal_nonempty (digits : string) :
  digits <> "" -> formatDecimal digits <> "".
Proof.
  intros Hne Hfmt. unfold formatDecimal in Hfmt.
  destruct (rev (groupThousands (rev (list_ascii_of_string digits)))) as [| x l] eqn:E;
    [| discriminate Hfmt].
  apply (f_equal (@rev ascii)) in E. rewrite rev_involutive in E. simpl in E.
  revert E. apply groupThousands_nonempty.
  intros Erev. apply (f_equal (@rev ascii)) in Erev.
  rewrite rev_involutive in Erev. simpl in Erev.
  destruct digits; [congruence | discriminate Erev].
Qed.

(** A formatted number is never the empty string, so it is truthy. *)
Lemma formatNumber_truthy (n : Z) : truthyString (formatNumber n) = true.
Proof.
  unfold formatNumber. apply truthyString_append.
  apply truthyString_nonempty, formatDecimal_nonempty, string_of_uint_nonempty.
Qed.

Section Placeholder.
Variable Proposal : Type.
Variable t : string -> string.

(** The code and the specification's wording agree on every identifier but
    the empty string. *)
Lemma ProposedAction_refines_spec (cls : option string) (id : option IdNumber) :
  id <> Some (IdString "") ->
  ProposedAction t {| className := cls; proposal := @None Proposal; idNumber := id |}
  = TextElement Proposal
      ("ui--ProposedAction " ++ match cls with Some c => c | None => "" end)
      (placeholderText_spec t id).
Proof.
  intros Hid. unfold ProposedAction, placeholderText_spec. simpl. f_equal.
  destruct id as [[n | s] |].
  - rewrite formatNumber_truthy. simpl. now rewrite append_assoc.
  - destruct s as [| c s]; [congruence |]. simpl. now rewrite append_assoc.
  - reflexivity.
Qed.

(** C9, as the code has it. Without a proposal the element holds the fixed
    message, translated, behind a prefix that depends on the identifier:
    none when the identifier is absent; [#<id>: ] with the formatted
    number when it is numeric (thousands grouping; 42 gives [#42: ]);
    [#<id>: ] with the string itself when it is a non-empty string; and
    none again when it is the empty string. *)
Theorem ProposedAction_placeholder (cls : option string) :
  let render id :=
    ProposedAction t {| className := cls; proposal := @None Proposal; idNumber := id |} in
  let div :=
    TextElement Proposal
      ("ui--ProposedAction " ++ match cls with Some c => c | None => "" end) in
  render None = div (t noDetails)
  /\ (forall n, render (Some (IdNumeric n))
                = div ("#" ++ formatNumber n ++ ": " ++ t noDetails))
  /\ render (Some (IdNumeric 42)) = div ("#42: " ++ t noDetails)
  /\ render (Some (IdNumeric 1234567)) = div ("#1,234,567: " ++ t noDetails)
  /\ (forall c s, render (Some (IdString (String c s)))
                  = div ("#" ++ String c s ++ ": " ++ t noDetails))
  /\ render (Some (IdString "")) = div (t noDetails).
Proof.
  intros render div. subst render div.
  split; [reflexivity |].
  split.
  { intros n. apply ProposedAction_refines_spec. discriminate. }
  split; [reflexivity |].
  split; [reflexivity |].
  split; [| reflexivity].
  intros c s. apply ProposedAction_refines_spec. discriminate.
Qed.
End Placeholder.

(** C9, as stated, fails on the empty string: an identifier is supplied,
    yet the text carries no [#<id>: ] prefix. *)
Lemma ProposedAction_empty_id_unprefixed :
  ProposedAction (fun s => s) (Sample.noProposal (Some (IdString "")))
  <> TextElement unit "ui--ProposedAction "
       (placeholderText_spec (fun s => s) (Some (IdString ""))).
Proof.
  vm_compute. discriminate.
Qed.

(** ** The statements at the sample inputs *)

Section Witnesses.
#[local] Existing Instance Sample.codec.
#[local] Existing Instance Sample.constants.

(** The scenario of a bare two-argument method, inspected without hash,
    signature or call name. *)
Example extractState_transfer :
  extractState Sample.transfer None None None
  = {| hash := None;
       overrides := None;
       params := [ {| param_name := "dest"; param_type := "AccountId" |};
                   {| param_name := "value"; param_type := "Compact<Balance>" |} ];
       signature := None;
       signatureType := None;
       values := [ {| isValid := true; value := "5GrwvaEF" |};
                   {| isValid := true; value := "500" |} ] |}.
Proof. reflexivity. Qed.

(** The same call, signed, inspected with everything switched on. *)
Example extractState_signedTransfer :
  extractState Sample.signedTransfer (Some true) (Some true) (Some "balances.transfer")
  = {| hash := Some "0x0102";
       overrides := Some [("Compact<Balance>", "Balance")];
       params := [ {| param_name := "dest"; param_type := "AccountId" |};
                   {| param_name := "value"; param_type := "Compact<Balance>" |} ];
       signature := Some "0x0aff";
       signatureType := Some "Sr25519";
       values := [ {| isValid := true; value := "5GrwvaEF" |};
                   {| isValid := true; value := "500" |} ] |}.
Proof. reflexivity. Qed.

Example formatNumber_samples :
  formatNumber 0 = "0" /\ formatNumber 42 = "42" /\ formatNumber 999 = "999"
  /\ formatNumber 1000 = "1,000" /\ formatNumber 1234567 = "1,234,567"
  /\ formatNumber (-1000) = "-1,000".
Proof. repeat split; reflexivity. Qed.

Lemma sample_registry_named : ~ In "" balanceCalls.
Proof.
  simpl. intros [E | [E | []]]; discriminate E.
Qed.

(** The sample rendering carries the [0x] prefix and two digits per byte. *)
Lemma u8aToHex_prefixed (u : list Byte.byte) :
  exists digits,
    Sample.u8aToHex u = "0x" ++ digits /\ String.length digits = 2 * List.length u.
Proof.
  exists (String.concat "" (map Sample.hexByte u)). split; [reflexivity |].
  induction u as [| b u IH]; [reflexivity |].
  simpl map. simpl String.concat.
  destruct (map Sample.hexByte u) as [| h tl] eqn:E.
  - destruct u; [reflexivity | discriminate E].
  - simpl in IH |- *. rewrite IH. simpl. lia.
Qed.

(** C1, as stated, fails on an input that declares two arguments and holds
    one value: [params] has two entries and [values] one. *)
Lemma extractState_misaligned_lengths_differ :
  let r := extractState Sample.misaligned None None None in
  length (params r) = 2 /\ length (values r) = 1
  /\ length (params r) <> length (values r).
Proof.
  vm_compute. repeat split. discriminate.
Qed.

Lemma extractState_signed_signature_witness :
  IValue.signature Sample.signedTransfer = Some [Byte.x0a; Byte.xff]
  /\ IValue.isSigned Sample.signedTransfer = true
  /\ (let r := extractState Sample.signedTransfer None (Some true) None in
      signature r = Some "0x0aff" /\ signatureType r = Some "Sr25519").
Proof.
  split; [reflexivity |]. split; [reflexivity |].
  destruct (extractState_signed_signature Sample.signedTransfer None None
              (sig := [Byte.x0a; Byte.xff]) eq_refl eq_refl)
    as [Hsignature [Htagged _]].
  split; [exact Hsignature |].
  exact (Htagged _ _ "Sr25519" eq_refl eq_refl eq_refl).
Defined.

Lemma extractState_method_unsigned_witness :
  IValue.signature Sample.transfer = None
  /\ signature (extractState Sample.transfer None (Some true) None) = None
  /\ signatureType (extractState Sample.transfer None (Some true) None) = None.
Proof.
  split; [reflexivity |].
  apply (extractState_method_unsigned Sample.transfer None (Some true) None).
  reflexivity.
Defined.

Lemma extractState_overrides_undefined_witness :
  ~ In "" balanceCalls
  /\ (forall c, In c balanceCalls ->
        overridesValue (extractState Sample.transfer None None (Some c))
        = Defined balanceCallsOverrides)
  /\ (forall c, ~ In c balanceCalls ->
        overridesValue (extractState Sample.transfer None None (Some c)) = IsUndefined
        /\ strictlyNull (overridesValue (extractState Sample.transfer None None (Some c)))
           = false)
  /\ overridesValue (extractState Sample.transfer None None None) = IsUndefined
  /\ strictlyNull (overridesValue (extractState Sample.transfer None None None)) = false
  /\ (forall cn, overridesValue (extractState Sample.transfer None None cn)
                 = overridesOf cn).
Proof.
  split; [exact sample_registry_named |].
  apply (extractState_overrides_undefined Sample.transfer None None).
  exact sample_registry_named.
Defined.

(** C5, as stated, fails when no call name is supplied: [overrides] is
    undefined, and [undefined === null] is false. *)
Lemma extractState_overrides_not_null :
  overridesValue (extractState Sample.transfer None None None) = IsUndefined
  /\ strictlyNull (overridesValue (extractState Sample.transfer None None None))
     <> true.
Proof.
  vm_compute. split; [reflexivity | discriminate].
Qed.

Lemma extractState_overrides_shared_witness :
  ~ In "" balanceCalls
  /\ In "balances.transfer" balanceCalls
  /\ In "balances.transferKeepAlive" balanceCalls
  /\ overrides (extractState Sample.transfer None None (Some "balances.transfer"))
     = overrides (extractState Sample.signedTransfer (Some true) (Some true)
                               (Some "balances.transferKeepAlive"))
  /\ overrides (extractState Sample.transfer None None (Some "balances.transfer"))
     = Some balanceCallsOverrides.
Proof.
  split; [exact sample_registry_named |].
  split; [simpl; tauto |]. split; [simpl; tauto |].
  apply (extractState_overrides_shared
           Sample.transfer Sample.signedTransfer None (Some true) None (Some true)
           "balances.transfer" "balances.transferKeepAlive").
  - exact sample_registry_named.
  - simpl; tauto.
  - simpl; tauto.
Defined.
End Witnesses.

(** * Further properties: the QR modal *)

Module QrModalFacts.
Import QrModal.

Section QrModalFacts.
Variable t : string -> string.
Variable trim : string -> string.
Variable createFromUri : string -> string.
Variable pairAddress : KeyringCall -> string.
Variable genesisHashHex : string.
Variable isEthereum : bool.

Variable genesisHashEq : string -> bool.

Lemma run_invariant (P : State -> Prop) :
  P initial ->
  (forall st e, P st -> P (handle trim createFromUri st e)) ->
  forall events, P (run trim createFromUri events).
Proof.
  intros Hinit Hstep events. unfold QrModal.run.
  generalize dependent initial.
  induction events as [| e events IH]; intros st Hst; simpl.
  - exact Hst.
  - apply IH, Hstep, Hst.
Qed.

Lemma nameKept_run events : nameKept trim (run trim createFromUri events).
Proof.
  apply run_invariant.
  - left. reflexivity.
  - intros st [n | p v | s | m |] Hst; simpl; try exact Hst.
    + right. reflexivity.
    + unfold _onScan. destruct (scanned_name s) as [n |]; [| exact Hst].
      destruct (truthyString n); [right; reflexivity | exact Hst].
Qed.

Lemma addressKept_run events : addressKept createFromUri (run trim createFromUri events).
Proof.
  apply run_invariant.
  - split; reflexivity.
  - intros st [n | p v | s | m |] Hst; simpl; try exact Hst.
    + unfold _onScan, addressKept.
      destruct (scanned_name s) as [n |]; [destruct (truthyString n) |];
        simpl; repeat split; reflexivity.
    + split; reflexivity.
Qed.

(** X1. After any sequence of edits, scans, scan errors and saves, the flag
    [isNameValid] is true only when the trimmed name is non-empty, and false
    only when the name is still the initial empty one or trims to nothing. *)
Theorem name_flag_follows_trimmed_name (events : list Event) :
  let st := run trim createFromUri events in
  (isNameValid (nameState st) = true -> trim (name (nameState st)) <> "")
  /\ (isNameValid (nameState st) = false ->
      name (nameState st) = "" \/ trim (name (nameState st)) = "").
Proof.
  intros st. subst st. destruct (nameKept_run events) as [Hinit | Hflag].
  - rewrite Hinit. simpl. split; [discriminate | now left].
  - rewrite Hflag. split.
    + apply truthyString_nonempty.
    + intros Hfalse. right.
      destruct (trim (name (nameState (run trim createFromUri events)))); [reflexivity | discriminate].
Qed.

(** X2. After any sequence of events the address cell agrees with the scan it
    holds: without a scan the address is empty and [isAddress] false; with
    one, [isAddress] is the scan's, the address is the scanned content or
    the address derived from the scanned secret, and no warning is left. *)
Theorem address_follows_scan (events : list Event) :
  let a := addressState (run trim createFromUri events) in
  match scanned a with
  | None => address a = "" /\ isAddress a = false
  | Some s =>
      isAddress a = scanned_isAddress s
      /\ address a = (if scanned_isAddress s then content s
                      else createFromUri (content s))
      /\ warning a = None
  end.
Proof.
  exact (addressKept_run events).
Qed.

(** X3. Whatever the keyring is asked to store after any sequence of events: an
    external account only for a scanned address, a secret only for a scanned
    secret and with a password that the password field reported valid; and
    whenever metadata goes along, its name is the trimmed name of the form
    and is not empty. Metadata is left out exactly for a scanned address on
    an Ethereum chain; a secret always goes with metadata. *)
Theorem saved_account_request (events : list Event) (call : KeyringCall) :
  In (KeyringAdd call) (_onSave t trim pairAddress genesisHashHex isEthereum (run trim createFromUri events)) ->
  let st := run trim createFromUri events in
  let named m :=
    meta_name m = trim (name (nameState st)) /\ meta_name m <> "" in
  exists s,
    scanned (addressState st) = Some s
    /\ match call with
       | addExternal c None =>
           scanned_isAddress s = true /\ c = content s /\ isEthereum = true
       | addExternal c (Some m) =>
           scanned_isAddress s = true /\ c = content s /\ isEthereum = false
           /\ named m
       | addUri c p m =>
           scanned_isAddress s = false /\ c = content s
           /\ p = password (passwordState st)
           /\ isPasswordValid (passwordState st) = true
           /\ named m
       end.
Proof.
  intros Hin st named. subst st named.
  pose proof (addressKept_run events) as Haddr.
  pose proof (name_flag_follows_trimmed_name events) as [Hname _].
  unfold QrModal._onSave in Hin. unfold addressKept in Haddr.
  destruct (scanned (addressState (run trim createFromUri events))) as [s |] eqn:Hs; [| contradiction].
  destruct Haddr as [HisA [_ _]].
  destruct (isValid (run trim createFromUri events)) eqn:Hvalid; simpl in Hin; [| contradiction].
  unfold isValid in Hvalid. rewrite HisA in Hvalid.
  apply andb_true_iff in Hvalid as [Hvalid Hpw].
  apply andb_true_iff in Hvalid as [_ Hnv].
  specialize (Hname Hnv).
  exists s. split; [reflexivity |].
  destruct Hin as [Hcall | [Hother | [Hother | [Hother | []]]]];
    try discriminate Hother.
  injection Hcall as <-.
  destruct (scanned_isAddress s) eqn:Hkind.
  - destruct isEthereum; simpl; repeat split; assumption.
  - simpl in Hpw. simpl. repeat split; assumption.
Qed.

(** X4. When the Save button is enabled, [_onSave] goes through: it asks the
    keyring, remembers the account as the last one used, reports success for
    that account and closes the modal, in this order. *)
Theorem enabled_save_goes_through (isIpfs : bool) (st : State) :
  saveDisabled isIpfs st = false ->
  exists call,
    _onSave t trim pairAddress genesisHashHex isEthereum st
    = [ KeyringAdd call;
        SetLastValue "account" (pairAddress call);
        OnStatusChange {| account := pairAddress call; action := "create";
                          message := t "created account"; status := "success" |};
        OnClose ].
Proof.
  unfold saveDisabled, QrModal._onSave. intros Hen.
  apply orb_false_iff in Hen as [Hen _].
  apply orb_false_iff in Hen as [Hscan Hvalid].
  destruct (scanned (addressState st)) as [s |]; [| discriminate Hscan].
  rewrite Hvalid. eexists. reflexivity.
Qed.

(** X5. [_onSave] does not look at [isIpfs]. With a scanned secret and a valid
    form on IPFS the Save button is disabled, yet [_onSave] (also the
    [onEnter] of the name and password fields) still stores the secret. *)
Theorem save_ignores_ipfs (events : list Event) (s : Scanned) :
  scanned (addressState (run trim createFromUri events)) = Some s ->
  scanned_isAddress s = false ->
  isValid (run trim createFromUri events) = true ->
  saveDisabled true (run trim createFromUri events) = true
  /\ exists m,
       In (KeyringAdd (addUri (content s) (password (passwordState (run trim createFromUri events))) m))
          (_onSave t trim pairAddress genesisHashHex isEthereum (run trim createFromUri events)).
Proof.
  intros Hs Hkind Hvalid.
  pose proof (addressKept_run events) as Haddr. unfold addressKept in Haddr.
  rewrite Hs in Haddr. destruct Haddr as [HisA _].
  split.
  - unfold saveDisabled. rewrite HisA, Hkind. simpl. apply orb_true_r.
  - unfold QrModal._onSave. rewrite Hs, Hvalid, Hkind. simpl.
    eexists. left. reflexivity.
Qed.

(** X6. A scan error clears the scan: whatever the state was, afterwards the
    form is invalid, the Save button is disabled, [_onSave] does nothing,
    and the scanner is shown again, with the error's message under it when
    the message is not empty. Name and password are kept. *)
Theorem scan_error_resets (isIpfs : bool) (st : State) (message : string) :
  let st' := _onError message st in
  isValid st' = false
  /\ saveDisabled isIpfs st' = true
  /\ _onSave t trim pairAddress genesisHashHex isEthereum st' = []
  /\ render genesisHashEq st'
     = ScanPane (if truthyString message then Some message else None)
  /\ nameState st' = nameState st
  /\ passwordState st' = passwordState st.
Proof.
  intros st'. subst st'. unfold isValid, saveDisabled, QrModal._onSave, render.
  simpl. repeat split.
Qed.

(** X7. After any sequence of events the modal shows the form of the scanned
    account when there is a scan, and the scanner otherwise. The form asks
    for a password exactly when the scan was a secret rather than an
    address, and warns about the genesis hash exactly when the scan names
    one that is not the chain's. *)
Theorem form_follows_scan (events : list Event) :
  let st := run trim createFromUri events in
  match scanned (addressState st) with
  | Some s =>
      render genesisHashEq st
      = FormPane (content s) (name (nameState st))
          (negb (isNameValid (nameState st)))
          (truthyString (genesisHash s) && negb (genesisHashEq (genesisHash s)))
          (negb (scanned_isAddress s))
  | None => exists w, render genesisHashEq st = ScanPane w
  end.
Proof.
  intros st. subst st.
  pose proof (addressKept_run events) as Haddr.
  unfold addressKept in Haddr. unfold render, scannedGenesisWarn.
  destruct (scanned (addressState (run trim createFromUri events))) as [s |].
  - destruct Haddr as [-> _]. reflexivity.
  - eexists. reflexivity.
Qed.
End QrModalFacts.
End QrModalFacts.

(** * Further properties: the proposal form *)

Module ProposeFacts.
Import Propose.

Section ProposeFacts.
Variable isHex : option string -> nat -> bool.
Variable Preimage : Type.
Variable usePreimage : option string -> option Preimage.
Variable PublicProp : Type.

Lemma hashKept_run (events : list Event) : hashKept isHex (run isHex events).
Proof.
  unfold run. assert (Hinit : hashKept isHex initial) by (left; reflexivity).
  revert Hinit. generalize initial.
  induction events as [| e events IH]; intros st Hst; simpl; [exact Hst |].
  apply IH. destruct e; simpl; try exact Hst. right. reflexivity.
Qed.

(** X8. After any sequence of inputs, [isHashValid] is true only when [isHex]
    accepted the stored hash as 256 bits of hexadecimal, and false only
    when no hash was entered yet or [isHex] rejected the stored one. *)
Theorem hash_flag_follows_isHex (events : list Event) :
  let st := run isHex events in
  (isHashValid (hashState st) = true -> isHex (hash (hashState st)) 256 = true)
  /\ (isHashValid (hashState st) = false ->
      hash (hashState st) = None \/ isHex (hash (hashState st)) 256 = false).
Proof.
  intros st. subst st. destruct (hashKept_run events) as [Hinit | Hflag].
  - rewrite Hinit. simpl. split; [discriminate | now left].
  - rewrite Hflag. split; [trivial | now right].
Qed.

(** X9. With an [isHex] that rejects [undefined]: whenever the submit button is
    enabled, the locked balance is at least the minimum deposit, the hash is
    one that [isHex] accepted, an account is selected, and no entry of
    [params] is [undefined], whichever of the three shapes [params] takes. *)
Theorem enabled_submit_is_complete
    (env : Env PublicProp) (events : list Event) :
  isHex None 256 = false ->
  isDisabled usePreimage env (run isHex events) = false ->
  let st := run isHex events in
  Forall (@defined Preimage) (params usePreimage env st)
  /\ (exists b, balance st = Some b /\ (minimumDeposit env <= b)%Z)
  /\ isHex (hash (hashState st)) 256 = true
  /\ (exists a, accountId st = Some a /\ a <> "").
Proof.
  intros Hundef Hen st. subst st.
  destruct (hash_flag_follows_isHex events) as [Hflag _].
  unfold isDisabled in Hen.
  repeat (apply orb_false_iff in Hen; destruct Hen as [Hen ?]).
  apply negb_false_iff in Hen.
  repeat match goal with
         | H : negb _ = false |- _ => apply negb_false_iff in H
         end.
  specialize (Hflag H2).
  unfold hasMinLocked in H3.
  destruct (balance (run isHex events)) as [b |] eqn:Hb; [| discriminate Hen].
  simpl in H3.
  destruct (accountId (run isHex events)) as [a |] eqn:Ha; [| discriminate H1].
  destruct (hash (hashState (run isHex events))) as [h |] eqn:Hh;
    [| congruence].
  destruct (publicProps env) as [pp |] eqn:Hpp; [| discriminate H0].
  repeat split.
  - unfold params. rewrite Hb, Hh, Hpp.
    destruct (proposeArgs env =? 3)%nat.
    + repeat constructor; discriminate.
    + destruct (preimageOnly env); simpl in H.
      * apply negb_false_iff in H.
        destruct (usePreimage (Some h)); [| discriminate H].
        repeat constructor; discriminate.
      * repeat constructor; discriminate.
  - exists b. split; [reflexivity |].
    destruct (minimumDeposit env <=? b)%Z eqn:Hle; [| discriminate H3].
    now apply Z.leb_le.
  - exact Hflag.
  - exists a. split; [reflexivity |]. now apply truthyString_nonempty.
Qed.
End ProposeFacts.
End ProposeFacts.

(** * Further properties: the deposit cell *)

Module DepositsFacts.
Import Deposits.

Section DepositsFacts.
Variables AccountId Balance Id PalletReferenda Track : Type.

(** X10. The refund button shows exactly when there is a decision deposit and
    refunding is allowed; the button to place a deposit exactly when there
    is no decision deposit, placing is allowed and the track is known. The
    two never show together. *)
Theorem deposit_actions (p : Props AccountId Balance Id PalletReferenda Track) :
  let c := children (Deposits p) in
  (existsb (@isRefund _ _ _ _ _) c = true
   <-> decision p <> None /\ truthy (canRefund p) = true)
  /\ (existsb (@isPlace _ _ _ _ _) c = true
      <-> decision p = None /\ truthy (canDeposit p) = true /\ track p <> None)
  /\ List.length (filter (fun x => isRefund x || isPlace x) c) <= 1.
Proof.
  intros c. subst c. unfold Deposits. simpl.
  destruct (submit p) as [s |], (decision p) as [d |],
    (truthy (canRefund p)), (truthy (canDeposit p)), (track p) as [tr |];
    simpl; repeat split; intros; try discriminate; try congruence;
    try lia;
    repeat match goal with
           | H : _ /\ _ |- _ => destruct H
           end; try discriminate; try congruence.
Qed.

(** X11. The addresses shown are those of the deposits that exist, the
    submission deposit before the decision deposit, each with its amount. *)
Theorem deposit_addresses (p : Props AccountId Balance Id PalletReferenda Track) :
  filter (@isAddressMini _ _ _ _ _) (children (Deposits p))
  = map (fun d => AddressMini Id PalletReferenda Track (amount d) (who d) true)
        (present (submit p) ++ present (decision p)).
Proof.
  unfold Deposits. simpl.
  destruct (submit p) as [s |], (decision p) as [d |],
    (truthy (canRefund p)), (truthy (canDeposit p)), (track p) as [tr |];
    reflexivity.
Qed.
End DepositsFacts.
End DepositsFacts.

(** * Further properties: the row of a democracy proposal *)

Module DemocracyProposalFacts.
Import DemocracyProposal.

Lemma filterFrom_later {A : Type} (l : list A) (k : nat) :
  filterFrom (fun _ index => negb (index =? 0)%nat) (S k) l = l.
Proof.
  revert k. induction l as [| x l IH]; intros k; simpl; [reflexivity |].
  now rewrite IH.
Qed.

Lemma noColon_digits (d : Decimal.uint) : noColon (NilEmpty.string_of_uint d).
Proof.
  induction d; simpl; repeat split; try discriminate; assumption.
Qed.

Lemma noColon_numberToString (n : nat) : noColon (numberToString n).
Proof.
  unfold numberToString, NilZero.string_of_uint.
  destruct (Nat.to_uint n) eqn:E; try (rewrite <- E; apply noColon_digits).
  simpl. split; [discriminate | exact I].
Qed.

(** Two strings without a colon that are followed by a colon in the same
    text are the same string. *)
Lemma before_colon_unique (a b x y : string) :
  noColon a -> noColon b ->
  a ++ ":" ++ x = b ++ ":" ++ y -> a = b.
Proof.
  revert b. induction a as [| c a IH]; intros [| c' b] Ha Hb Heq; simpl in *.
  - reflexivity.
  - injection Heq as Hc _. destruct Hb as [Hb _]. congruence.
  - injection Heq as Hc _. destruct Ha as [Ha _]. congruence.
  - injection Heq as Hc Hrest. destruct Ha as [_ Ha], Hb as [_ Hb].
    f_equal; [assumption | now apply IH].
Qed.

Lemma numberToString_inj (i j : nat) :
  numberToString i = numberToString j -> i = j.
Proof.
  unfold numberToString. intros Heq.
  assert (Hnn : forall n, Nat.to_uint n <> Decimal.Nil).
  { intros n. rewrite <- (DecimalNat.Unsigned.of_to n) at 1.
    rewrite DecimalNat.Unsigned.to_of. apply DecimalFacts.unorm_nonnil. }
  apply DecimalNat.Unsigned.to_uint_inj.
  pose proof (NilZero.usu (Nat.to_uint i) (Hnn i)) as Hi.
  pose proof (NilZero.usu (Nat.to_uint j) (Hnn j)) as Hj.
  rewrite Heq in Hi. congruence.
Qed.

Section DemocracyProposalFacts.
Variable AccountId : Type.
Variable toHex : AccountId -> string.

(** X12. The endorsements are the seconds without their first entry, in the same
    order: one fewer than the seconds, none for an empty list; the expander
    shows exactly when there are at least two seconds. *)
Theorem seconding_drops_first (seconds : list AccountId) :
  seconding seconds = tl seconds
  /\ List.length (seconding seconds) = List.length seconds - 1
  /\ (showEndorsements seconds = true <-> 2 <= List.length seconds).
Proof.
  assert (Htl : seconding seconds = tl seconds).
  { unfold seconding, filterIndexed. destruct seconds as [| s rest]; simpl.
    - reflexivity.
    - apply filterFrom_later. }
  unfold showEndorsements. rewrite Htl.
  destruct seconds as [| s [| s' rest]]; simpl; repeat split;
    intros; try discriminate; try lia.
Qed.

Lemma renderSeconds_from (l : list AccountId) (k : nat) :
  let rows :=
    mapFrom (fun address count =>
               {| key := numberToString count ++ ":" ++ toHex address;
                  value := address; withBalance := false; withShrink := true |})
            k l in
  NoDup (map (@key AccountId) rows)
  /\ (forall r, In r rows ->
        exists count, k <= count
                      /\ key r = numberToString count ++ ":" ++ toHex (value r))
  /\ map (@value AccountId) rows = l.
Proof.
  revert k. induction l as [| a l IH]; intros k; simpl.
  - repeat split; [constructor | intros r []].
  - destruct (IH (S k)) as [Hnd [Hkeys Hvals]]. repeat split.
    + constructor; [| exact Hnd].
      intros Hin. apply in_map_iff in Hin as [r [Hkey Hr]].
      destruct (Hkeys r Hr) as [count [Hle Hform]].
      rewrite Hform in Hkey.
      apply before_colon_unique in Hkey; try apply noColon_numberToString.
      apply numberToString_inj in Hkey. lia.
    + intros r [<- | Hr].
      * exists k. split; [lia | reflexivity].
      * destruct (Hkeys r Hr) as [count [Hle Hform]].
        exists count. split; [lia | exact Hform].
    + f_equal. exact Hvals.
Qed.

(** X13. The rows of the endorsement list carry pairwise distinct keys, also
    when one address endorses more than once, and they show the seconds
    after the first, in order. *)
Theorem renderSeconds_keys_distinct (seconds : list AccountId) :
  NoDup (map (@key AccountId) (renderSeconds toHex seconds))
  /\ map (@value AccountId) (renderSeconds toHex seconds) = tl seconds.
Proof.
  unfold renderSeconds, mapIndexed.
  destruct (renderSeconds_from (seconding seconds) 0) as [Hnd [_ Hvals]].
  split; [exact Hnd |].
  rewrite Hvals. apply seconding_drops_first.
Qed.
End DemocracyProposalFacts.
End DemocracyProposalFacts.

(** * Further properties: the extraction and the rows of [Call] *)

Section ExtractionMore.
Context `{CodecLayer} `{Constants}.

(** X14. A signature is extracted exactly when it was asked for, the input
    carries a signature and reports itself signed: not for an unsigned
    extrinsic, not without [withSignature]. A signature type never comes
    without a signature. *)
Theorem extractState_signature_iff
    (v : IValue.t) (wh ws : option bool) (cn : option string) :
  let r := extractState v wh ws cn in
  (signature r <> None
   <-> ws = Some true /\ IValue.signature v <> None /\ IValue.isSigned v = true)
  /\ (signatureType r <> None -> signature r <> None).
Proof.
  intros r. subst r.
  rewrite extractState_signature, extractState_signatureType.
  unfold isExtrinsic.
  destruct ws as [[|] |], (IValue.signature v) as [sig |],
    (IValue.isSigned v); simpl; repeat split;
    try congruence; try discriminate;
    intros; repeat match goal with
                   | H : _ /\ _ |- _ => destruct H
                   end; congruence.
Qed.

(** X15. A flag that is not supplied acts as a flag that is false: the two
    records are equal, for [withHash] and for [withSignature]. *)
Theorem extractState_absent_flag_is_false
    (v : IValue.t) (wh ws : option bool) (cn : option string) :
  extractState v None ws cn = extractState v (Some false) ws cn
  /\ extractState v wh None cn = extractState v wh (Some false) cn.
Proof.
  split; apply extractState_flags_truthiness; reflexivity.
Qed.
End ExtractionMore.

Module CallRowsFacts.
Import CallRows.

Section CallRowsFacts.
Context `{CodecLayer} `{Constants}.
Variable Node : Type.
Variable t : string -> string.
Variable tReplace : string -> string -> string -> string.

Lemma whenText_class (x : option string) (row : string -> Static Node) (c : string) :
  (forall s, hasClass c (row s) = false) ->
  filter (hasClass c) (whenText x row) = [].
Proof.
  intros Hrow. unfold whenText.
  destruct x as [s |]; [| reflexivity].
  destruct (truthyString s); [| reflexivity]. simpl. now rewrite Hrow.
Qed.

Lemma whenText_length (x : option string) (row : string -> Static Node) :
  List.length (whenText x row) <= 1.
Proof.
  unfold whenText. destruct x as [s |]; [destruct (truthyString s) |]; simpl; lia.
Qed.

(** X16. The tip row shows exactly for a tip above zero, with that tip as its
    balance: an absent tip, a zero tip and a negative one give no row, and
    there is never more than one. *)
Theorem tip_row_iff_positive (p : RowProps Node) (state : Extracted) :
  filter (hasClass "tip") (Call_toplevel t tReplace p state)
  = match tip p with
    | Some z =>
        if (0 <? z)%Z
        then [ {| static_className := "tip"; label := NodeText Node (t "tip");
                  static_value := ValueBalance z; withCopy := false |} ]
        else []
    | None => []
    end.
Proof.
  unfold Call_toplevel. rewrite !filter_app.
  rewrite !whenText_class by reflexivity. simpl.
  destruct (tip p) as [z |]; [| reflexivity].
  destruct (0 <? z)%Z; reflexivity.
Qed.

(** X17. Rendering what [extractState] returned: without [withHash] no hash row,
    and for a bare method no signature row either, so that a method
    inspected without [withHash] gets no row of class [hash] at all; in
    every case there are at most two such rows and at most four rows. *)
Theorem rows_of_extraction
    (p : RowProps Node) (v : IValue.t) (wh ws : option bool) (cn : option string) :
  let rows := Call_toplevel t tReplace p (extractState v wh ws cn) in
  (truthy wh = false -> IValue.signature v = None ->
   filter (hasClass "hash") rows = [])
  /\ List.length (filter (hasClass "hash") rows) <= 2
  /\ List.length rows <= 4.
Proof.
  intros rows. subst rows. unfold Call_toplevel.
  set (A := whenText (hash _) _). set (B := whenText (signature _) _).
  set (C := whenText (mortality p) _).
  set (D := match tip p with Some _ => _ | None => _ end).
  assert (HA : List.length A <= 1) by apply whenText_length.
  assert (HB : List.length B <= 1) by apply whenText_length.
  assert (HC : List.length C <= 1) by apply whenText_length.
  assert (HC' : filter (hasClass "hash") C = [])
    by (apply whenText_class; reflexivity).
  assert (HD : List.length D <= 1 /\ filter (hasClass "hash") D = []).
  { subst D. destruct (tip p) as [z |]; [destruct (0 <? z)%Z |];
      simpl; split; (lia || reflexivity). }
  destruct HD as [HD HD'].
  pose proof (filter_length_le (hasClass "hash") A) as HfA.
  pose proof (filter_length_le (hasClass "hash") B) as HfB.
  split; [| split].
  - intros Hwh Hsig.
    assert (EA : A = []).
    { subst A. rewrite extractState_hash, Hwh. reflexivity. }
    assert (EB : B = []).
    { subst B. rewrite extractState_signature. unfold isExtrinsic.
      rewrite Hsig. simpl. rewrite andb_false_r. reflexivity. }
    rewrite EA, EB. simpl. rewrite filter_app, HC', HD'. reflexivity.
  - rewrite !filter_app, !length_app, HC', HD'. simpl. lia.
  - rewrite !length_app. lia.
Qed.
End CallRowsFacts.
End CallRowsFacts.

(** * The further statements at sample inputs *)

Lemma saved_account_request_witness :
  let st := QrModal.run QrModal.sampleTrim (fun c => "5Derived" ++ c)
              [QrModal.Scan QrModal.sampleUri; QrModal.PasswordChange "pw" true] in
  let call :=
    QrModal.addUri "0xfeedface" "pw"
      {| QrModal.meta_genesisHash := "0x00"; QrModal.meta_name := "cold wallet" |} in
  In (QrModal.KeyringAdd call)
     (QrModal._onSave (fun s => s) QrModal.sampleTrim QrModal.samplePair "0x00" false st)
  /\ exists s,
       QrModal.scanned (QrModal.addressState st) = Some s
       /\ QrModal.scanned_isAddress s = false /\ "0xfeedface" = QrModal.content s
       /\ "pw" = QrModal.password (QrModal.passwordState st)
       /\ QrModal.isPasswordValid (QrModal.passwordState st) = true
       /\ "cold wallet" = QrModal.sampleTrim (QrModal.name (QrModal.nameState st))
       /\ "cold wallet" <> "".
Proof.
  intros st call.
  assert (Hin : In (QrModal.KeyringAdd call)
                   (QrModal._onSave (fun s => s) QrModal.sampleTrim
                      QrModal.samplePair "0x00" false st))
    by (left; reflexivity).
  split; [exact Hin |].
  exact (QrModalFacts.saved_account_request
           (fun s => s) QrModal.sampleTrim (fun c => "5Derived" ++ c)
           QrModal.samplePair "0x00" false
           [QrModal.Scan QrModal.sampleUri; QrModal.PasswordChange "pw" true]
           call Hin).
Defined.

Lemma enabled_save_goes_through_witness :
  let st := QrModal.run QrModal.sampleTrim (fun c => "5Derived" ++ c)
              [QrModal.Scan QrModal.sampleAddress; QrModal.NameChange "ledger"] in
  QrModal.saveDisabled false st = false
  /\ exists call,
       QrModal._onSave (fun s => s) QrModal.sampleTrim QrModal.samplePair "0x00" false st
       = [ QrModal.KeyringAdd call;
           QrModal.SetLastValue "account" (QrModal.samplePair call);
           QrModal.OnStatusChange
             {| QrModal.account := QrModal.samplePair call;
                QrModal.action := "create";
                QrModal.message := "created account";
                QrModal.status := "success" |};
           QrModal.OnClose ].
Proof.
  intros st. split; [reflexivity |].
  apply (QrModalFacts.enabled_save_goes_through
           (fun s => s) QrModal.sampleTrim QrModal.samplePair "0x00" false false st).
  reflexivity.
Defined.

Lemma save_ignores_ipfs_witness :
  let st := QrModal.run QrModal.sampleTrim (fun c => "5Derived" ++ c)
              [QrModal.Scan QrModal.sampleUri; QrModal.PasswordChange "pw" true] in
  QrModal.scanned (QrModal.addressState st) = Some QrModal.sampleUri
  /\ QrModal.scanned_isAddress QrModal.sampleUri = false
  /\ QrModal.isValid st = true
  /\ QrModal.saveDisabled true st = true
  /\ exists m,
       In (QrModal.KeyringAdd
             (QrModal.addUri (QrModal.content QrModal.sampleUri)
                (QrModal.password (QrModal.passwordState st)) m))
          (QrModal._onSave (fun s => s) QrModal.sampleTrim QrModal.samplePair "0x00" false st).
Proof.
  intros st. split; [reflexivity |]. split; [reflexivity |]. split; [reflexivity |].
  apply (QrModalFacts.save_ignores_ipfs
           (fun s => s) QrModal.sampleTrim (fun c => "5Derived" ++ c)
           QrModal.samplePair "0x00" false
           [QrModal.Scan QrModal.sampleUri; QrModal.PasswordChange "pw" true]
           (s := QrModal.sampleUri)); reflexivity.
Defined.

Lemma enabled_submit_is_complete_witness :
  let st := Propose.run Propose.sampleIsHex Propose.sampleInputs in
  Propose.sampleIsHex None 256 = false
  /\ Propose.isDisabled Propose.samplePreimage Propose.sampleEnv st = false
  /\ Forall (@Propose.defined (string * Z))
            (Propose.params Propose.samplePreimage Propose.sampleEnv st)
  /\ (exists b, Propose.balance st = Some b
                /\ (Propose.minimumDeposit Propose.sampleEnv <= b)%Z)
  /\ Propose.sampleIsHex (Propose.hash (Propose.hashState st)) 256 = true
  /\ (exists a, Propose.accountId st = Some a /\ a <> "").
Proof.
  intros st. split; [reflexivity |]. split; [reflexivity |].
  apply (ProposeFacts.enabled_submit_is_complete
           Propose.sampleIsHex Propose.samplePreimage Propose.sampleEnv
           Propose.sampleInputs); reflexivity.
Defined.
